(** * VerifyBot API (app.py): conversation store and request handlers

    A shallow embedding of [app.py].  Python values are modelled as follows.

    - A Python [str] is a sequence of Unicode code points: [list N].
    - The three LangChain message classes are the constructors of [Message].
    - A Python list is a mutable object with an identity.  Lists live in a
      [heap] indexed by locations; the module-level dict [conversations]
      maps a session id to the location of its list.  [history.append] is
      therefore visible through [conversations], as in the source.
    - Handlers run in a state-and-exception monad: raising keeps every
      mutation made so far, and [try ... except Exception] catches every
      exception raised in its body, [HTTPException] included.
    - [llm.invoke] is the remote model call.  It is an argument of [chat]:
      a function from the list it is given to either the exception it
      raises or the text of the reply.
    - Both handlers are [async def] bodies without an [await]: once
      started, a handler runs to its end, so requests are served one
      after another and a run of the service is a sequence of requests. *)

From Stdlib Require Import ZArith NArith String Ascii DecimalString.
From stdpp Require Import base option list gmap fin_maps.

Local Open Scope N_scope.

(** ** Python strings *)

Abbreviation str := (list N) (only parsing).

(** An ASCII literal of the source, character by character. *)
Definition lit (s : string) : str :=
  map N_of_ascii (list_ascii_of_string s).

(** [str.isspace] on one character: the code points Python's Unicode
    database marks as whitespace. *)
Definition isspace (c : N) : bool :=
  ((0x09 <=? c) && (c <=? 0x0D)) ||
  ((0x1C <=? c) && (c <=? 0x20)) ||
  (c =? 0x85) || (c =? 0xA0) || (c =? 0x1680) ||
  ((0x2000 <=? c) && (c <=? 0x200A)) ||
  (c =? 0x2028) || (c =? 0x2029) || (c =? 0x202F) ||
  (c =? 0x205F) || (c =? 0x3000).

(** [s.lstrip()], [s.rstrip()] and [s.strip()] with no argument. *)
Fixpoint lstrip (s : str) : str :=
  match s with
  | [] => []
  | c :: s' => if isspace c then lstrip s' else s
  end.

Definition rstrip (s : str) : str := rev (lstrip (rev s)).

Definition strip (s : str) : str := rstrip (lstrip s).

(** Truthiness of a [str]: [not s] holds exactly for the empty string. *)
Definition str_not (s : str) : bool :=
  match s with [] => true | _ :: _ => false end.

(** ** Messages *)

Inductive Message : Type :=
  | SystemMessage (content : str)
  | HumanMessage (content : str)
  | AIMessage (content : str).

Inductive Role : Type := system | user | assistant.

Definition role (m : Message) : Role :=
  match m with
  | SystemMessage _ => system
  | HumanMessage _ => user
  | AIMessage _ => assistant
  end.

Definition content (m : Message) : str :=
  match m with
  | SystemMessage c | HumanMessage c | AIMessage c => c
  end.

Definition SYSTEM_PROMPT : str :=
  lit "You are VerifyBot, the official AI assistant of Verify "
  ++ [0x2014] ++
  lit " a secure AI-powered platform designed to eliminate fake degrees and certificates. 
Verify uses blockchain, AI, and OCR to authenticate both physical and digital certificates issued by verified universities.

Your goals are to:
1. Help users understand how to verify certificates on the platform.
2. Assist universities in uploading databases, issuing new certificates, or integrating blockchain-based QR codes.
3. Guide verifiers in uploading batches of certificates and checking their authenticity.
4. Support administrators in managing verified universities, removing fraudulent ones, and monitoring certificate activity.
5. Explain how the system uses YOLOv11 object detection, image hashing, and OCR (Tesseract) for validating old certificates.
6. Clearly describe how Ethereum blockchain and MetaMask integration make new e-certificates tamper-proof.
7. Always maintain a professional, trustworthy, and secure tone.
8. Politely refuse any request to falsify or alter certificates, and redirect such queries to the proper verification process.
9. Provide step-by-step help for common tasks like verification, QR scanning, MetaMask connection, or dashboard navigation.
10. Use concise technical explanations when answering advanced questions from developers or system admins.

Tech Stack (for context): TypeScript, React, FastAPI, Node.js, AWS, MongoDB, Ethereum blockchain, MetaMask.

Whenever uncertain, ask clarifying questions before responding. Always emphasize security, authenticity, and transparency.
".

(** ** Exceptions *)

Inductive exn : Type :=
  | HTTPException (status_code : Z) (detail : str)
  | KeyError (key : str)
  | ValueError (msg : str)
  | ProviderError (msg : str).

(** What the Python runtime and the web framework define and this
    repository does not: [repr] of a string, and [str] of an
    [HTTPException]. *)
Class Runtime : Type := {
  py_repr : str → str;
  http_exception_str : Z → str → str
}.

(** [str(e)].  A [ProviderError] stands for any exception raised inside
    [llm.invoke]; it carries the text [str(e)] yields. *)
Definition exn_str `{Runtime} (e : exn) : str :=
  match e with
  | HTTPException c d => http_exception_str c d
  | KeyError k => py_repr k
  | ValueError m => m
  | ProviderError m => m
  end.

(** A runtime to run examples in: the framework prints an
    [HTTPException] as its status code, a colon and its detail.
    [py_repr] is Python's [repr] only on strings that hold no quote,
    no backslash and no unprintable character, where [repr] is the
    string between single quotes; on other strings [repr] escapes or
    switches quotes and [py_repr] does not.  It is reached only through
    a [KeyError], which no handler raises
    ([get_or_create_history_effect]). *)
Definition sample_runtime : Runtime := {|
  py_repr := λ s, lit "'" ++ s ++ lit "'";
  http_exception_str := λ c d,
    lit (NilZero.string_of_int (Z.to_int c)) ++ lit ": " ++ d
|}.

(** ** Program state *)

Definition loc := positive.

Record state : Type := mkState {
  heap : gmap loc (list Message);
  conversations : gmap (list N) loc
}.

(** [conversations = {}] at import time; no list exists yet. *)
Definition init_state : state := mkState ∅ ∅.

(** The log stored for a session, read through the dict. *)
Definition log_of (st : state) (sid : str) : option (list Message) :=
  l ← conversations st !! sid; heap st !! l.

(** ** The handler monad *)

Definition M (A : Type) : Type := state → (exn + A) * state.

Definition raise {A} (e : exn) : M A := λ st, (inl e, st).

#[global] Instance M_ret : MRet M := λ A a st, (inr a, st).

#[global] Instance M_bind : MBind M := λ A B k m st,
  match m st with
  | (inr a, st') => k a st'
  | (inl e, st') => (inl e, st')
  end.

(** [try: body  except Exception as e: handler(e)] *)
Definition try_except {A} (body : M A) (handler : exn → M A) : M A :=
  λ st, match body st with
        | (inr a, st') => (inr a, st')
        | (inl e, st') => handler e st'
        end.

(** [if c: body] with no [else]. *)
Definition when (c : bool) (body : M unit) : M unit :=
  if c then body else mret tt.

(** *** Primitive operations on the dict and on lists *)

(** [sid in conversations] *)
Definition dict_contains (sid : str) : M bool :=
  λ st, (inr (bool_decide (is_Some (conversations st !! sid))), st).

(** [conversations[sid]] *)
Definition dict_getitem (sid : str) : M loc :=
  λ st, match conversations st !! sid with
        | Some l => (inr l, st)
        | None => (inl (KeyError sid), st)
        end.

(** [conversations[sid] = l] *)
Definition dict_setitem (sid : str) (l : loc) : M unit :=
  λ st, (inr tt, mkState (heap st) (<[sid := l]> (conversations st))).

(** A list display [[m1, ..., mn]]: a new list object, distinct from
    every object that exists. *)
Definition new_list (ms : list Message) : M loc :=
  λ st, let l := fresh (dom (heap st)) in
        (inr l, mkState (<[l := ms]> (heap st)) (conversations st)).

(** [l.append(m)] *)
Definition list_append (l : loc) (m : Message) : M unit :=
  λ st, (inr tt, mkState (alter (λ h, h ++ [m]) l (heap st)) (conversations st)).

(** The contents of a list at the moment it is handed to a callee. *)
Definition list_contents (l : loc) : M (list Message) :=
  λ st, (inr (default [] (heap st !! l)), st).

(** ** Request and response bodies *)

Module ChatRequest.
Record t : Type := mk { message : str; session_id : str }.
End ChatRequest.

Module ChatResponse.
Record t : Type := mk { response : str; session_id : str }.
End ChatResponse.

Module ClearHistoryRequest.
Record t : Type := mk { session_id : str }.
End ClearHistoryRequest.

(** The dict literal returned by [clear_history], key by key. *)
Module ClearHistoryResponse.
Record t : Type := mk { message : str; session_id : str }.
End ClearHistoryResponse.

(** ** The functions of app.py *)

Definition get_or_create_history (sid : str) : M loc :=
  present ← dict_contains sid;
  when (negb present)
    (l ← new_list [SystemMessage SYSTEM_PROMPT]; dict_setitem sid l);;
  dict_getitem sid.

(** The remote model: the list it receives to what [llm.invoke] does. *)
Definition gateway : Type := list Message → exn + str.

Definition llm_invoke (llm : gateway) (history : loc) : M str :=
  h ← list_contents history;
  match llm h with
  | inr reply => mret reply
  | inl e => raise e
  end.

Definition chat `{Runtime} (llm : gateway) (request : ChatRequest.t)
  : M ChatResponse.t :=
  try_except
    (when (str_not (strip (ChatRequest.message request)))
       (raise (HTTPException 400 (lit "Message cannot be empty")));;
     history ← get_or_create_history (ChatRequest.session_id request);
     list_append history (HumanMessage (ChatRequest.message request));;
     bot_message ← llm_invoke llm history;
     list_append history (AIMessage bot_message);;
     mret (ChatResponse.mk bot_message (ChatRequest.session_id request)))
    (λ e, raise (HTTPException 500
                   (lit "Error processing message: " ++ exn_str e))).

Definition clear_history `{Runtime} (request : ClearHistoryRequest.t)
  : M ClearHistoryResponse.t :=
  try_except
    (present ← dict_contains (ClearHistoryRequest.session_id request);
     when present
       (l ← new_list [SystemMessage SYSTEM_PROMPT];
        dict_setitem (ClearHistoryRequest.session_id request) l);;
     mret (ClearHistoryResponse.mk (lit "Conversation history cleared")
            (ClearHistoryRequest.session_id request)))
    (λ e, raise (HTTPException 500
                   (lit "Error clearing history: " ++ exn_str e))).

(** The status line the framework sends for a handler's outcome. *)
Definition http_status {A} (r : exn + A) : Z :=
  match r with
  | inr _ => 200
  | inl (HTTPException c _) => c
  | inl _ => 500
  end.

(** A string that is empty or made of whitespace only. *)
Definition blank (s : str) : bool := forallb isspace s.

(** ** Module initialisation *)

(** [load_dotenv()]: bindings of the [.env] file enter the process
    environment unless the variable is already set there. *)
Definition load_dotenv (dotenv environ : gmap (list N) (list N))
  : gmap (list N) (list N) :=
  environ ∪ dotenv.

(** [os.getenv(name)]: the value, or [None]. *)
Definition os_getenv (environ : gmap (list N) (list N)) (name : str)
  : option (list N) :=
  environ !! name.

(** Truthiness of an optional string: [not v] holds for [None] and for
    the empty string. *)
Definition opt_str_not (v : option (list N)) : bool :=
  match v with
  | None => true
  | Some s => str_not s
  end.

(** Lines 10-14 of the module: the outcome of importing it is the
    [ValueError] raised, or the credential the model client is built
    with. *)
Definition module_init (dotenv environ : gmap (list N) (list N))
  : exn + option (list N) :=
  let google_api_key :=
    os_getenv (load_dotenv dotenv environ) (lit "GOOGLE_API_KEY") in
  if opt_str_not google_api_key
  then inl (ValueError (lit "GOOGLE_API_KEY not found in environment variables"))
  else inr google_api_key.

(** ** States the handlers pass through *)

(** The state after [new_list ms], after [l.append(m)] and after
    [conversations[sid] = l]. *)
Definition alloc (ms : list Message) (st : state) : state :=
  mkState (<[fresh (dom (heap st)) := ms]> (heap st)) (conversations st).

Definition appended (l : loc) (m : Message) (st : state) : state :=
  mkState (alter (λ h, h ++ [m]) l (heap st)) (conversations st).

Definition bound (sid : str) (l : loc) (st : state) : state :=
  mkState (heap st) (<[sid := l]> (conversations st)).

(** The log [get_or_create_history] hands to its caller: the one stored
    under the session id, or a fresh one when the id is unseen. *)
Definition history_for (st : state) (sid : str) : option (list Message) :=
  match conversations st !! sid with
  | Some l => heap st !! l
  | None => Some [SystemMessage SYSTEM_PROMPT]
  end.

(** ** Sequences of requests *)

Inductive op : Type :=
  | SendMessage (llm : gateway) (request : ChatRequest.t)
  | ClearHistory (request : ClearHistoryRequest.t).

Definition op_session (o : op) : str :=
  match o with
  | SendMessage _ request => ChatRequest.session_id request
  | ClearHistory request => ClearHistoryRequest.session_id request
  end.

(** The store a request leaves behind, whatever its outcome. *)
Definition run_op `{Runtime} (o : op) (st : state) : state :=
  match o with
  | SendMessage llm request => (chat llm request st).2
  | ClearHistory request => (clear_history request st).2
  end.

(** The stores the service can be in: the one the module starts with,
    and those left by any request served from a reachable one.  Each
    send may meet a different behaviour of the remote model. *)
Inductive reachable `{Runtime} : state → Prop :=
  | reachable_init : reachable init_state
  | reachable_step o st : reachable st → reachable (run_op o st).

(** Every stored log exists and starts with the system entry. *)
Definition system_first (st : state) : Prop :=
  ∀ sid, is_Some (conversations st !! sid) →
    ∃ t, log_of st sid = Some (SystemMessage SYSTEM_PROMPT :: t).

(** No list object is stored under two session ids. *)
Definition unshared (st : state) : Prop :=
  ∀ sid1 sid2 l,
    conversations st !! sid1 = Some l →
    conversations st !! sid2 = Some l → sid1 = sid2.

Definition store_ok (st : state) : Prop := system_first st ∧ unshared st.

(** A request for one session leaves another session's entry alone:
    the same list object, with the same contents. *)
Definition untouched (sid : str) (st st' : state) : Prop :=
  conversations st' !! sid = conversations st !! sid
  ∧ log_of st' sid = log_of st sid.

(** ** Sample requests

    Two behaviours of the remote model and the stores a few requests
    leave, used to run the handlers on concrete inputs. *)

Definition replying_gateway : gateway :=
  λ _, inr (lit "Upload the certificate on the Verify page.").

Definition failing_gateway : gateway :=
  λ _, inl (ProviderError (lit "429 quota exceeded")).

(** Session A after one successful turn. *)
Definition store_A : state :=
  @run_op sample_runtime
    (SendMessage replying_gateway
       (ChatRequest.mk (lit "How do I verify a degree?") (lit "A")))
    init_state.

(** Sessions A and B, B after a turn the remote model failed. *)
Definition store_AB : state :=
  @run_op sample_runtime
    (SendMessage failing_gateway (ChatRequest.mk (lit "Hello") (lit "B")))
    store_A.

(** ** The static handlers *)

Module RootResponse.
Record t : Type := mk { message : str }.
End RootResponse.

Module HealthResponse.
Record t : Type := mk { status : str; service : str }.
End HealthResponse.

Definition root : M RootResponse.t :=
  mret (RootResponse.mk
          (lit "VerifyBot API is running. Use POST /chat to send messages.")).

Definition health_check : M HealthResponse.t :=
  mret (HealthResponse.mk (lit "ok") (lit "VerifyBot API")).

(** ** Runs and the view of one session *)

(** Serving a list of requests in order. *)
Definition run_ops `{Runtime} (os : list op) (st : state) : state :=
  foldl (λ st o, run_op o st) st os.

(** The shape of a conversation: the system entry comes first and
    nowhere else, and an assistant entry comes directly after a user
    entry. *)
Definition well_shaped (h : list Message) : Prop :=
  h !! 0%nat = Some (SystemMessage SYSTEM_PROMPT)
  ∧ ∀ i m, h !! i = Some m →
      (role m = system → i = 0%nat)
      ∧ (role m = assistant →
         ∃ j c, i = S j ∧ h !! j = Some (HumanMessage c)).

(** What a request does to the log of its own session, written as a
    function of that log alone ([None]: the session id is not stored).
    This is a second description of the handlers, over logs instead of
    over the heap; [log_of_run_op] relates the two. *)
Definition next_log (o : op) (log : option (list Message))
  : option (list Message) :=
  match o with
  | SendMessage llm request =>
      if blank (ChatRequest.message request) then log
      else
        let h := default [SystemMessage SYSTEM_PROMPT] log in
        match llm (h ++ [HumanMessage (ChatRequest.message request)]) with
        | inr reply =>
            Some (h ++ [HumanMessage (ChatRequest.message request);
                        AIMessage reply])
        | inl _ => Some (h ++ [HumanMessage (ChatRequest.message request)])
        end
  | ClearHistory _ =>
      match log with
      | Some _ => Some [SystemMessage SYSTEM_PROMPT]
      | None => None
      end
  end.

(** The requests that bind their session id when it is not bound yet:
    the sends whose message has visible text. *)
Definition creates (o : op) : bool :=
  match o with
  | SendMessage _ request => negb (blank (ChatRequest.message request))
  | ClearHistory _ => false
  end.

(** Every list the dict holds exists and is well shaped. *)
Definition shaped_store (st : state) : Prop :=
  ∀ sid l, conversations st !! sid = Some l →
    ∃ h, heap st !! l = Some h ∧ well_shaped h.

(** A model that answers with the number of entries it was shown, in
    unary: its reply tells how much context it received. *)
Definition counting_gateway : gateway :=
  λ h, inr (replicate (length h) 0x31).

(** ** Stripping *)

Section Strip.

Lemma blank_app s t : blank (s ++ t) = blank s && blank t.
Proof. apply forallb_app. Qed.

Lemma blank_rev s : blank (rev s) = blank s.
Proof.
  induction s as [|c s IH]; [done|].
  cbn [rev]. rewrite blank_app, IH. unfold blank. cbn.
  destruct (isspace c), (forallb isspace s); done.
Qed.

Lemma lstrip_nil s : lstrip s = [] ↔ blank s = true.
Proof.
  induction s as [|c s IH]; [done|].
  cbn. destruct (isspace c); [exact IH | split; discriminate].
Qed.

(** What [lstrip] leaves is empty or starts with a visible character. *)
Lemma lstrip_head s : blank (lstrip s) = true → lstrip s = [].
Proof.
  induction s as [|c s IH]; [done|].
  cbn. destruct (isspace c) eqn:Hc; [exact IH|].
  cbn. rewrite Hc. discriminate.
Qed.

Lemma strip_nil s : strip s = [] ↔ blank s = true.
Proof.
  unfold strip, rstrip. split.
  - intros Hs. apply lstrip_nil, lstrip_head.
    rewrite <- blank_rev. apply lstrip_nil.
    apply (f_equal (@rev N)) in Hs. rewrite rev_involutive in Hs. exact Hs.
  - intros Hs. apply lstrip_nil in Hs. rewrite Hs. done.
Qed.

Lemma str_not_strip s : str_not (strip s) = blank s.
Proof.
  destruct (blank s) eqn:Hb.
  - apply strip_nil in Hb. rewrite Hb. done.
  - destruct (strip s) eqn:Hs; [|done].
    apply strip_nil in Hs. congruence.
Qed.

End Strip.

(** ** What the store functions compute *)

(** Literals stay folded while programs are run symbolically. *)
Arguments lit : simpl never.

(** Runs the monadic plumbing of a handler; stops at dict lookups, at
  the blank test and at the gateway. *)
Ltac run_handler :=
cbv beta iota zeta delta
  [mbind M_bind mret M_ret raise try_except when
   dict_contains dict_getitem dict_setitem new_list list_append
   list_contents llm_invoke];
cbn [heap conversations fst snd].

Section StoreFunctions.

Implicit Types (st : state) (sid : str) (l : loc) (h : list Message).

Lemma fresh_loc_unused st : heap st !! fresh (dom (heap st)) = None.
Proof. apply not_elem_of_dom, is_fresh. Qed.

Lemma get_or_create_history_present st sid l :
  conversations st !! sid = Some l →
  get_or_create_history sid st = (inr l, st).
Proof.
  intros Hl. unfold get_or_create_history. run_handler.
  rewrite bool_decide_eq_true_2 by eauto.
  cbn [negb]. rewrite Hl. done.
Qed.

Lemma get_or_create_history_absent st sid :
  conversations st !! sid = None →
  get_or_create_history sid st =
    (inr (fresh (dom (heap st))),
     bound sid (fresh (dom (heap st))) (alloc [SystemMessage SYSTEM_PROMPT] st)).
Proof.
  intros Hl. unfold get_or_create_history. run_handler.
  rewrite bool_decide_eq_false_2
    by (rewrite Hl; intros [? ?]; discriminate).
  cbn [negb heap conversations]. rewrite lookup_insert_eq. done.
Qed.

(** In both cases the caller gets a reference to the stored list. *)
Lemma get_or_create_history_returns st sid h :
  history_for st sid = Some h →
  ∃ l st1, get_or_create_history sid st = (inr l, st1)
           ∧ conversations st1 !! sid = Some l
           ∧ heap st1 !! l = Some h.
Proof.
  unfold history_for. destruct (conversations st !! sid) as [l|] eqn:Hl.
  - intros Hh. exists l, st. by rewrite (get_or_create_history_present _ _ l).
  - intros [= <-]. eexists _, _.
    rewrite get_or_create_history_absent by done.
    split; [done|]. cbn. by rewrite !lookup_insert_eq.
Qed.

Lemma log_of_history_for st sid h :
  log_of st sid = Some h → history_for st sid = Some h.
Proof.
  unfold log_of, history_for.
  destruct (conversations st !! sid); [done | discriminate].
Qed.

End StoreFunctions.

(** ** What the handlers compute *)

Section Handlers.

Context `{Runtime}.
Implicit Types (st : state) (llm : gateway) (req : ChatRequest.t).

(** A blank message: the [HTTPException] raised by the guard is caught
    by the handler's own [except Exception]. *)
Lemma chat_blank llm req st :
  blank (ChatRequest.message req) = true →
  chat llm req st =
    (inl (HTTPException 500
            (lit "Error processing message: " ++
             exn_str (HTTPException 400 (lit "Message cannot be empty")))),
     st).
Proof.
  intros Hb. unfold chat. run_handler.
  rewrite str_not_strip, Hb. done.
Qed.

(** A message with visible text: the outcome follows the gateway. *)
Lemma chat_visible llm req st l st1 :
  blank (ChatRequest.message req) = false →
  get_or_create_history (ChatRequest.session_id req) st = (inr l, st1) →
  let st2 := appended l (HumanMessage (ChatRequest.message req)) st1 in
  chat llm req st =
    match llm (default [] (heap st2 !! l)) with
    | inr reply =>
        (inr (ChatResponse.mk reply (ChatRequest.session_id req)),
         appended l (AIMessage reply) st2)
    | inl e =>
        (inl (HTTPException 500
                (lit "Error processing message: " ++ exn_str e)), st2)
    end.
Proof.
  intros Hb Hg st2. unfold chat. run_handler.
  rewrite str_not_strip, Hb, Hg. subst st2. unfold appended.
  cbn [heap conversations]. destruct (llm _); done.
Qed.

Lemma clear_history_present (req : ClearHistoryRequest.t) st :
  is_Some (conversations st !! ClearHistoryRequest.session_id req) →
  clear_history req st =
    (inr (ClearHistoryResponse.mk (lit "Conversation history cleared")
            (ClearHistoryRequest.session_id req)),
     bound (ClearHistoryRequest.session_id req) (fresh (dom (heap st)))
       (alloc [SystemMessage SYSTEM_PROMPT] st)).
Proof.
  intros Hp. unfold clear_history. run_handler.
  rewrite bool_decide_eq_true_2 by done. done.
Qed.

Lemma clear_history_absent (req : ClearHistoryRequest.t) st :
  conversations st !! ClearHistoryRequest.session_id req = None →
  clear_history req st =
    (inr (ClearHistoryResponse.mk (lit "Conversation history cleared")
            (ClearHistoryRequest.session_id req)),
     st).
Proof.
  intros Hp. unfold clear_history. run_handler.
  rewrite bool_decide_eq_false_2
    by (rewrite Hp; intros [? ?]; discriminate).
  done.
Qed.

End Handlers.

(** ** Single requests *)

Section Requests.

Context `{Runtime}.
Implicit Types (st : state) (llm : gateway) (sid msg : list N).

Lemma appended_lookup l m st :
  heap (appended l m st) !! l = (λ h, h ++ [m]) <$> heap st !! l.
Proof. apply lookup_alter_eq. Qed.

Lemma log_of_appended l m st sid :
  conversations st !! sid = Some l →
  log_of (appended l m st) sid = (λ h, h ++ [m]) <$> heap st !! l.
Proof.
  intros Hl. unfold log_of. cbn [conversations appended].
  rewrite Hl. apply lookup_alter_eq.
Qed.

(** C1, as the code behaves.  A send whose message is empty or made of
    spaces leaves the store as it was, and the status of the response
    is 500: the 400 raised by the guard does not leave the handler. *)
Theorem chat_blank_message_status llm st sid :
  let empty := chat llm (ChatRequest.mk [] sid) st in
  let spaces := chat llm (ChatRequest.mk (lit "   ") sid) st in
  http_status empty.1 = 500%Z ∧ empty.2 = st ∧
  http_status spaces.1 = 500%Z ∧ spaces.2 = st.
Proof.
  cbv zeta. rewrite !chat_blank by reflexivity. done.
Qed.

(** C2.  A send with visible text whose gateway call succeeds appends
    the user entry and then the assistant entry to the log obtained
    from the store for that session; the entries already there are
    kept and the log is longer by exactly two. *)
Theorem chat_success_appends_two llm st sid msg h reply :
  blank msg = false →
  history_for st sid = Some h →
  llm (h ++ [HumanMessage msg]) = inr reply →
  ∃ st',
    chat llm (ChatRequest.mk msg sid) st
      = (inr (ChatResponse.mk reply sid), st')
    ∧ log_of st' sid = Some (h ++ [HumanMessage msg; AIMessage reply])
    ∧ length (h ++ [HumanMessage msg; AIMessage reply]) = (length h + 2)%nat.
Proof.
  intros Hb Hh Hllm.
  destruct (get_or_create_history_returns st sid h Hh) as (l & st1 & Hg & Hl & Hl1).
  eexists. rewrite (chat_visible llm _ st l st1) by done.
  cbn [ChatRequest.message ChatRequest.session_id].
  rewrite appended_lookup, Hl1. cbn [fmap option_fmap option_map default from_option id].
  rewrite Hllm. split; [done|]. split.
  - rewrite log_of_appended by done.
    rewrite appended_lookup, Hl1. cbn. by rewrite <- app_assoc.
  - rewrite length_app. done.
Qed.

(** C3.  A send with visible text whose gateway call raises answers
    500 with a detail that contains the text of the exception, and the
    log ends with the user entry of that turn: one entry was appended
    and no assistant entry follows it. *)
Theorem chat_gateway_failure llm st sid msg h e :
  blank msg = false →
  history_for st sid = Some h →
  llm (h ++ [HumanMessage msg]) = inl e →
  ∃ st' detail,
    chat llm (ChatRequest.mk msg sid) st = (inl (HTTPException 500 detail), st')
    ∧ detail = lit "Error processing message: " ++ exn_str e
    ∧ (∃ before after, detail = before ++ exn_str e ++ after)
    ∧ log_of st' sid = Some (h ++ [HumanMessage msg])
    ∧ last (h ++ [HumanMessage msg]) = Some (HumanMessage msg)
    ∧ length (h ++ [HumanMessage msg]) = (length h + 1)%nat.
Proof.
  intros Hb Hh Hllm.
  destruct (get_or_create_history_returns st sid h Hh) as (l & st1 & Hg & Hl & Hl1).
  eexists _, _. rewrite (chat_visible llm _ st l st1) by done.
  cbn [ChatRequest.message ChatRequest.session_id].
  rewrite appended_lookup, Hl1. cbn [fmap option_fmap option_map default from_option id].
  rewrite Hllm. split; [done|]. split; [done|]. split.
  { exists (lit "Error processing message: "), []. by rewrite app_nil_r. }
  split; [|split].
  - rewrite log_of_appended by done. by rewrite Hl1.
  - apply last_snoc.
  - rewrite length_app. done.
Qed.

(** C4.  For a session id the store has not seen, [get_or_create_history]
    makes a new list holding the system entry alone, stores it under the
    id and returns it; called again, it returns that same list and
    changes nothing. *)
Theorem get_or_create_history_unseen st sid :
  conversations st !! sid = None →
  ∃ l st1 entry,
    get_or_create_history sid st = (inr l, st1)
    ∧ heap st !! l = None
    ∧ conversations st1 !! sid = Some l
    ∧ log_of st1 sid = Some [entry]
    ∧ role entry = system ∧ content entry = SYSTEM_PROMPT
    ∧ get_or_create_history sid st1 = (inr l, st1).
Proof.
  intros Hl. eexists _, _, (SystemMessage SYSTEM_PROMPT).
  rewrite get_or_create_history_absent by done.
  split; [done|]. split; [apply fresh_loc_unused|].
  assert (conversations
            (bound sid (fresh (dom (heap st)))
               (alloc [SystemMessage SYSTEM_PROMPT] st)) !! sid
          = Some (fresh (dom (heap st)))) as Hb
    by apply lookup_insert_eq.
  split; [done|]. split.
  { unfold log_of. rewrite Hb. apply lookup_insert_eq. }
  split; [done|]. split; [done|].
  by apply get_or_create_history_present.
Qed.

(** C5.  For a session id the store holds, whatever its log,
    [clear_history] answers with that id and leaves a log made of the
    system entry alone under it. *)
Theorem clear_history_resets st sid :
  is_Some (conversations st !! sid) →
  ∃ st',
    clear_history (ClearHistoryRequest.mk sid) st
      = (inr (ClearHistoryResponse.mk (lit "Conversation history cleared") sid),
         st')
    ∧ log_of st' sid = Some [SystemMessage SYSTEM_PROMPT]
    ∧ length [SystemMessage SYSTEM_PROMPT] = 1%nat.
Proof.
  intros Hp. eexists. rewrite clear_history_present by done.
  split; [done|]. split; [|done].
  unfold log_of, bound, alloc. cbn [heap conversations ClearHistoryRequest.session_id].
  rewrite lookup_insert_eq. apply lookup_insert_eq.
Qed.

(** C8.  For a session id the store does not hold, [clear_history]
    answers with that id and the store is exactly as before. *)
Theorem clear_history_unseen st sid :
  conversations st !! sid = None →
  clear_history (ClearHistoryRequest.mk sid) st
    = (inr (ClearHistoryResponse.mk (lit "Conversation history cleared") sid),
       st).
Proof. intros Hp. by apply clear_history_absent. Qed.

(** C10.  A send with a blank message for a session id the store does
    not hold leaves the store as it was: the id is still unbound and the
    set of keys is the same. *)
Theorem chat_blank_unseen_creates_nothing llm st sid msg :
  blank msg = true →
  conversations st !! sid = None →
  let st' := (chat llm (ChatRequest.mk msg sid) st).2 in
  st' = st
  ∧ dom (conversations st') = dom (conversations st)
  ∧ conversations st' !! sid = None
  ∧ log_of st' sid = None.
Proof.
  intros Hb Hl. cbv zeta. rewrite chat_blank by done. cbn [snd].
  unfold log_of. rewrite Hl. done.
Qed.

End Requests.

(** ** Start-up *)

(** A variable set in neither place is unset after [load_dotenv]; one
    set in the process environment keeps its value. *)
Lemma getenv_unset dotenv environ name :
  environ !! name = None → dotenv !! name = None →
  os_getenv (load_dotenv dotenv environ) name = None.
Proof.
  intros He Hd. unfold os_getenv, load_dotenv. by apply lookup_union_None.
Qed.

Lemma getenv_environ dotenv environ name v :
  environ !! name = Some v →
  os_getenv (load_dotenv dotenv environ) name = Some v.
Proof.
  intros He. unfold os_getenv, load_dotenv. by apply lookup_union_Some_l.
Qed.

(** A variable the process environment leaves unset takes the value
    the [.env] file binds it to. *)
Lemma getenv_dotenv dotenv environ name v :
  environ !! name = None → dotenv !! name = Some v →
  os_getenv (load_dotenv dotenv environ) name = Some v.
Proof.
  intros He Hd. unfold os_getenv, load_dotenv. by rewrite lookup_union_r.
Qed.

(** C9.  When [GOOGLE_API_KEY] is set neither in the process
    environment nor in the [.env] file, or is set to the empty string
    (by the process environment, or by the [.env] file while the
    process environment leaves it unset), importing the module raises
    [ValueError]: the service does not start. *)
Theorem module_init_needs_credential dotenv environ :
  (environ !! lit "GOOGLE_API_KEY" = None
   ∧ dotenv !! lit "GOOGLE_API_KEY" = None)
  ∨ environ !! lit "GOOGLE_API_KEY" = Some []
  ∨ (environ !! lit "GOOGLE_API_KEY" = None
     ∧ dotenv !! lit "GOOGLE_API_KEY" = Some []) →
  module_init dotenv environ
    = inl (ValueError (lit "GOOGLE_API_KEY not found in environment variables")).
Proof.
  unfold module_init. intros [[He Hd] | [He | [He Hd]]].
  - by rewrite (getenv_unset _ _ _ He Hd).
  - by rewrite (getenv_environ _ _ _ _ He).
  - by rewrite (getenv_dotenv _ _ _ _ He Hd).
Qed.

(** With a non-empty credential the import goes through. *)
Lemma module_init_with_credential dotenv environ c k :
  os_getenv (load_dotenv dotenv environ) (lit "GOOGLE_API_KEY") = Some (c :: k) →
  module_init dotenv environ = inr (Some (c :: k)).
Proof. unfold module_init. intros ->. done. Qed.

(** ** Invariants of the store *)

Section Invariants.

Context `{Runtime}.
Implicit Types (st : state) (sid : list N) (l : loc) (o : op).

Lemma store_ok_init : store_ok init_state.
Proof.
  split.
  - intros sid [l Hl]. cbn [init_state conversations] in Hl.
    by rewrite lookup_empty in Hl.
  - intros sid1 sid2 l Hl. cbn [init_state conversations] in Hl.
    by rewrite lookup_empty in Hl.
Qed.

(** A list held by the dict is an existing object. *)
Lemma system_first_live st sid l :
  system_first st → conversations st !! sid = Some l →
  ∃ t, heap st !! l = Some (SystemMessage SYSTEM_PROMPT :: t).
Proof.
  intros Hs Hl. destruct (Hs sid) as [t Ht]; [by eexists|].
  exists t. unfold log_of in Ht. by rewrite Hl in Ht.
Qed.

Lemma held_not_fresh st sid l :
  system_first st → conversations st !! sid = Some l →
  l ≠ fresh (dom (heap st)).
Proof.
  intros Hs Hl ->. destruct (system_first_live _ _ _ Hs Hl) as [t Ht].
  by rewrite fresh_loc_unused in Ht.
Qed.

(** Binding a session id to a new list that holds the system entry. *)
Lemma store_ok_fresh_binding st sid :
  store_ok st →
  store_ok (bound sid (fresh (dom (heap st)))
              (alloc [SystemMessage SYSTEM_PROMPT] st)).
Proof.
  intros [Hs Hu]. split.
  - intros sid' [l' Hl']. unfold log_of, bound, alloc in *.
    cbn [heap conversations] in *.
    destruct (decide (sid = sid')) as [<- | Hne].
    + rewrite lookup_insert_eq in Hl'. injection Hl' as <-.
      exists []. rewrite lookup_insert_eq. cbn. apply lookup_insert_eq.
    + rewrite lookup_insert_ne in Hl' |- * by done. rewrite Hl'. cbn.
      rewrite lookup_insert_ne by (symmetry; by eapply held_not_fresh).
      by eapply system_first_live.
  - intros sid1 sid2 l. unfold bound, alloc. cbn [heap conversations].
    destruct (decide (sid = sid1)) as [<- | H1];
      destruct (decide (sid = sid2)) as [<- | H2];
      rewrite ?lookup_insert_eq, ?lookup_insert_ne by done.
    + done.
    + intros [= <-] H2'. by destruct (held_not_fresh _ _ _ Hs H2').
    + intros H1' [= <-]. by destruct (held_not_fresh _ _ _ Hs H1').
    + apply Hu.
Qed.

Lemma untouched_fresh_binding st0 st sid sid' :
  sid' ≠ sid → system_first st → untouched sid' st0 st →
  untouched sid' st0 (bound sid (fresh (dom (heap st)))
                        (alloc [SystemMessage SYSTEM_PROMPT] st)).
Proof.
  intros Hne Hs [Hc Hlog].
  assert (conversations
            (bound sid (fresh (dom (heap st)))
               (alloc [SystemMessage SYSTEM_PROMPT] st)) !! sid'
          = conversations st !! sid') as Hb
    by (apply lookup_insert_ne; done).
  split; [by rewrite Hb|]. rewrite <- Hlog. unfold log_of. rewrite Hb.
  destruct (conversations st !! sid') as [l'|] eqn:Hl'; [|done]. cbn.
  apply lookup_insert_ne. symmetry. by eapply held_not_fresh.
Qed.

(** Appending to a list the dict holds. *)
Lemma store_ok_appended st l m :
  store_ok st → store_ok (appended l m st).
Proof.
  intros [Hs Hu]. split; [|exact Hu].
  intros sid' [l' Hl']. cbn [conversations appended] in Hl'.
  destruct (system_first_live _ _ _ Hs Hl') as [t Ht].
  unfold log_of. cbn [conversations heap appended]. rewrite Hl'. cbn.
  destruct (decide (l = l')) as [<- | Hne].
  - exists (t ++ [m]). by rewrite lookup_alter_eq, Ht.
  - exists t. by rewrite lookup_alter_ne.
Qed.

Lemma untouched_appended st0 st sid sid' l m :
  sid' ≠ sid → unshared st → conversations st !! sid = Some l →
  untouched sid' st0 st → untouched sid' st0 (appended l m st).
Proof.
  intros Hne Hu Hl [Hc Hlog]. split; [exact Hc|].
  rewrite <- Hlog. unfold log_of. cbn [conversations heap appended].
  destruct (conversations st !! sid') as [l'|] eqn:Hl'; [|done]. cbn.
  apply lookup_alter_ne. intros <-. apply Hne. by eapply Hu.
Qed.

(** The stores [chat] can leave: a property that holds before, survives
    the creation of the session's log and survives an append to that
    log, holds after. *)
Lemma chat_state_ind (P : state → Prop) (llm : gateway) (req : ChatRequest.t) st :
  P st →
  (∀ st1, P st1 →
     conversations st1 !! ChatRequest.session_id req = None →
     P (bound (ChatRequest.session_id req) (fresh (dom (heap st1)))
          (alloc [SystemMessage SYSTEM_PROMPT] st1))) →
  (∀ st1 l m, P st1 →
     conversations st1 !! ChatRequest.session_id req = Some l →
     P (appended l m st1)) →
  P (chat llm req st).2.
Proof.
  intros HP Hnew Happ.
  destruct (blank (ChatRequest.message req)) eqn:Hb.
  { by rewrite chat_blank. }
  assert (∃ l st1, get_or_create_history (ChatRequest.session_id req) st
                     = (inr l, st1)
                   ∧ P st1
                   ∧ conversations st1 !! ChatRequest.session_id req = Some l)
    as (l & st1 & Hg & HP1 & Hl1).
  { destruct (conversations st !! ChatRequest.session_id req) as [l|] eqn:Hl.
    - exists l, st. by rewrite (get_or_create_history_present _ _ l).
    - eexists _, _. rewrite get_or_create_history_absent by done.
      split; [done|]. split; [by apply Hnew|]. apply lookup_insert_eq. }
  rewrite (chat_visible llm req st l st1 Hb Hg).
  destruct (llm _); cbn [snd]; auto.
Qed.

Lemma clear_history_state_ind (P : state → Prop) (req : ClearHistoryRequest.t) st :
  P st →
  (is_Some (conversations st !! ClearHistoryRequest.session_id req) →
   P (bound (ClearHistoryRequest.session_id req) (fresh (dom (heap st)))
        (alloc [SystemMessage SYSTEM_PROMPT] st))) →
  P (clear_history req st).2.
Proof.
  intros HP Hnew.
  destruct (conversations st !! ClearHistoryRequest.session_id req) as [l|] eqn:Hl.
  - rewrite clear_history_present by (rewrite Hl; by eexists).
    apply Hnew. by eexists.
  - by rewrite clear_history_absent.
Qed.

Lemma store_ok_run_op o st : store_ok st → store_ok (run_op o st).
Proof.
  intros Hok. destruct o as [llm req | req]; cbn [run_op].
  - apply chat_state_ind; [done | |].
    + intros st1 H1 _. by apply store_ok_fresh_binding.
    + intros st1 l m H1 _. by apply store_ok_appended.
  - apply clear_history_state_ind; [done|].
    intros _. by apply store_ok_fresh_binding.
Qed.

Lemma reachable_store_ok st : reachable st → store_ok st.
Proof.
  induction 1 as [|o st _ IH]; [apply store_ok_init | by apply store_ok_run_op].
Qed.

Lemma untouched_run_op o st sid' :
  store_ok st → sid' ≠ op_session o → untouched sid' st (run_op o st).
Proof.
  intros Hok Hne.
  set (P := λ st', store_ok st' ∧ untouched sid' st st').
  assert (P st) as HP by (split; [done | split; done]).
  assert (∀ st1, P st1 →
            P (bound (op_session o) (fresh (dom (heap st1)))
                 (alloc [SystemMessage SYSTEM_PROMPT] st1))) as Hnew.
  { intros st1 [Hok1 Hun1]. split; [by apply store_ok_fresh_binding|].
    apply untouched_fresh_binding; [done | apply Hok1 | done]. }
  cut (P (run_op o st)); [by intros [_ ?]|].
  destruct o as [llm req | req]; cbn [run_op op_session] in *.
  - apply chat_state_ind; [done | by auto |].
    intros st1 l m [Hok1 Hun1] Hl. split; [by apply store_ok_appended|].
    eapply untouched_appended; [done | apply Hok1 | done | done].
  - apply clear_history_state_ind; [done | by auto].
Qed.

(** From a reachable store, [get_or_create_history] always has a log to
    hand out, so a send with visible text always reaches the gateway. *)
Lemma reachable_history_for st sid :
  reachable st → ∃ h, history_for st sid = Some h.
Proof.
  intros Hr. apply reachable_store_ok in Hr as [Hs _]. unfold history_for.
  destruct (conversations st !! sid) as [l|] eqn:Hl; [|by eexists].
  destruct (system_first_live _ _ _ Hs Hl) as [t Ht]. by eexists.
Qed.

(** C6.  In every store reachable by sends and clears, each stored log
    starts with the system entry, and whatever request is served next
    the same holds of the store it leaves. *)
Theorem system_entry_first_invariant st :
  reachable st →
  system_first st ∧ ∀ o, system_first (run_op o st).
Proof.
  intros Hr. split.
  - by apply reachable_store_ok.
  - intros o. by apply store_ok_run_op, reachable_store_ok.
Qed.

(** C7.  From a reachable store, a send or a clear for one session
    leaves every other session as it was: still bound or still unbound,
    to the same list, with the same entries. *)
Theorem other_sessions_untouched st o sid' :
  reachable st →
  sid' ≠ op_session o →
  conversations (run_op o st) !! sid' = conversations st !! sid'
  ∧ log_of (run_op o st) sid' = log_of st sid'.
Proof.
  intros Hr Hne. apply untouched_run_op; [by apply reachable_store_ok | done].
Qed.

End Invariants.

(** ** The theorems at concrete requests *)

(** What a client sees for a message of two spaces, when the framework
    prints exceptions as Starlette does. *)
Example chat_blank_sample :
  (@chat sample_runtime replying_gateway
     (ChatRequest.mk (lit "  ") (lit "A")) init_state).1
  = inl (HTTPException 500
           (lit "Error processing message: 400: Message cannot be empty")).
Proof. vm_compute; reflexivity. Qed.

Example store_AB_roles :
  option_map (map role) (log_of store_AB (lit "A"))
    = Some [system; user; assistant]
  ∧ option_map (map role) (log_of store_AB (lit "B")) = Some [system; user].
Proof. split; vm_compute; reflexivity. Qed.

Example strip_sample : strip (lit "  a b  ") = lit "a b".
Proof. reflexivity. Qed.

Lemma chat_success_appends_two_witness :
  let h := [SystemMessage SYSTEM_PROMPT;
            HumanMessage (lit "How do I verify a degree?");
            AIMessage (lit "Upload the certificate on the Verify page.")] in
  let reply := lit "Upload the certificate on the Verify page." in
  blank (lit " And a diploma? ") = false
  ∧ history_for store_AB (lit "A") = Some h
  ∧ replying_gateway (h ++ [HumanMessage (lit " And a diploma? ")]) = inr reply
  ∧ ∃ st',
      @chat sample_runtime replying_gateway
        (ChatRequest.mk (lit " And a diploma? ") (lit "A")) store_AB
        = (inr (ChatResponse.mk reply (lit "A")), st')
      ∧ log_of st' (lit "A")
        = Some (h ++ [HumanMessage (lit " And a diploma? "); AIMessage reply])
      ∧ length (h ++ [HumanMessage (lit " And a diploma? "); AIMessage reply])
        = (length h + 2)%nat.
Proof.
  cbv zeta. split; [reflexivity|]. split; [vm_compute; reflexivity|].
  split; [reflexivity|].
  apply (@chat_success_appends_two sample_runtime);
    [reflexivity | vm_compute; reflexivity | reflexivity].
Defined.

Lemma chat_gateway_failure_witness :
  let h := [SystemMessage SYSTEM_PROMPT] in
  let e := ProviderError (lit "429 quota exceeded") in
  blank (lit "Hello") = false
  ∧ history_for store_A (lit "B") = Some h
  ∧ failing_gateway (h ++ [HumanMessage (lit "Hello")]) = inl e
  ∧ ∃ st' detail,
      @chat sample_runtime failing_gateway
        (ChatRequest.mk (lit "Hello") (lit "B")) store_A
        = (inl (HTTPException 500 detail), st')
      ∧ detail = lit "Error processing message: " ++ @exn_str sample_runtime e
      ∧ (∃ before after, detail = before ++ @exn_str sample_runtime e ++ after)
      ∧ log_of st' (lit "B") = Some (h ++ [HumanMessage (lit "Hello")])
      ∧ last (h ++ [HumanMessage (lit "Hello")]) = Some (HumanMessage (lit "Hello"))
      ∧ length (h ++ [HumanMessage (lit "Hello")]) = (length h + 1)%nat.
Proof.
  cbv zeta. split; [reflexivity|]. split; [vm_compute; reflexivity|].
  split; [reflexivity|].
  apply (@chat_gateway_failure sample_runtime);
    [reflexivity | vm_compute; reflexivity | reflexivity].
Defined.

Lemma get_or_create_history_unseen_witness :
  conversations store_A !! lit "B" = None
  ∧ ∃ l st1 entry,
      get_or_create_history (lit "B") store_A = (inr l, st1)
      ∧ heap store_A !! l = None
      ∧ conversations st1 !! lit "B" = Some l
      ∧ log_of st1 (lit "B") = Some [entry]
      ∧ role entry = system ∧ content entry = SYSTEM_PROMPT
      ∧ get_or_create_history (lit "B") st1 = (inr l, st1).
Proof.
  split; [vm_compute; reflexivity|].
  apply (get_or_create_history_unseen store_A (lit "B")).
  vm_compute; reflexivity.
Defined.

Lemma clear_history_resets_witness :
  is_Some (conversations store_AB !! lit "A")
  ∧ option_map length (log_of store_AB (lit "A")) = Some 3%nat
  ∧ ∃ st',
      @clear_history sample_runtime (ClearHistoryRequest.mk (lit "A")) store_AB
        = (inr (ClearHistoryResponse.mk (lit "Conversation history cleared")
                  (lit "A")), st')
      ∧ log_of st' (lit "A") = Some [SystemMessage SYSTEM_PROMPT]
      ∧ length [SystemMessage SYSTEM_PROMPT] = 1%nat.
Proof.
  split; [exists 1%positive; vm_compute; reflexivity|].
  split; [vm_compute; reflexivity|].
  apply (@clear_history_resets sample_runtime store_AB (lit "A")).
  exists 1%positive. vm_compute; reflexivity.
Defined.

Lemma clear_history_unseen_witness :
  conversations store_A !! lit "B" = None
  ∧ @clear_history sample_runtime (ClearHistoryRequest.mk (lit "B")) store_A
    = (inr (ClearHistoryResponse.mk (lit "Conversation history cleared")
              (lit "B")), store_A).
Proof.
  split; [vm_compute; reflexivity|].
  apply (@clear_history_unseen sample_runtime store_A (lit "B")).
  vm_compute; reflexivity.
Defined.

Lemma chat_blank_unseen_creates_nothing_witness :
  let st' := (@chat sample_runtime replying_gateway
                (ChatRequest.mk (lit "  ") (lit "B")) store_A).2 in
  blank (lit "  ") = true
  ∧ conversations store_A !! lit "B" = None
  ∧ st' = store_A
  ∧ dom (conversations st') = dom (conversations store_A)
  ∧ conversations st' !! lit "B" = None
  ∧ log_of st' (lit "B") = None.
Proof.
  cbv zeta. split; [reflexivity|]. split; [vm_compute; reflexivity|].
  apply (@chat_blank_unseen_creates_nothing sample_runtime
           replying_gateway store_A (lit "B") (lit "  "));
    [reflexivity | vm_compute; reflexivity].
Defined.

Lemma module_init_needs_credential_witness :
  let failure :=
    inl (ValueError (lit "GOOGLE_API_KEY not found in environment variables")) in
  ((∅ : gmap (list N) (list N)) !! lit "GOOGLE_API_KEY" = None
   ∧ ({[lit "PORT" := lit "8000"]} : gmap (list N) (list N))
       !! lit "GOOGLE_API_KEY" = None)
  ∧ module_init {[lit "PORT" := lit "8000"]} ∅ = failure
  ∧ ({[lit "GOOGLE_API_KEY" := []]} : gmap (list N) (list N))
      !! lit "GOOGLE_API_KEY" = Some []
  ∧ module_init {[lit "GOOGLE_API_KEY" := lit "key-from-file"]}
      {[lit "GOOGLE_API_KEY" := []]} = failure
  ∧ module_init {[lit "GOOGLE_API_KEY" := []]} ∅ = failure.
Proof.
  cbv zeta.
  assert ((∅ : gmap (list N) (list N)) !! lit "GOOGLE_API_KEY" = None)
    as Hnone by (vm_compute; reflexivity).
  assert (({[lit "PORT" := lit "8000"]} : gmap (list N) (list N))
            !! lit "GOOGLE_API_KEY" = None) as Hport
    by (vm_compute; reflexivity).
  assert (({[lit "GOOGLE_API_KEY" := []]} : gmap (list N) (list N))
            !! lit "GOOGLE_API_KEY" = Some []) as Hempty
    by (vm_compute; reflexivity).
  split; [exact (conj Hnone Hport)|].
  split; [exact (module_init_needs_credential _ _
                   (or_introl (conj Hnone Hport)))|].
  split; [exact Hempty|].
  split; [exact (module_init_needs_credential _ _
                   (or_intror (or_introl Hempty)))|].
  exact (module_init_needs_credential _ _
           (or_intror (or_intror (conj Hnone Hempty)))).
Defined.

Lemma system_entry_first_invariant_witness :
  @reachable sample_runtime store_AB
  ∧ system_first store_AB
  ∧ ∀ o, system_first (@run_op sample_runtime o store_AB).
Proof.
  assert (@reachable sample_runtime store_AB) as Hr
    by (apply reachable_step, reachable_step, reachable_init).
  split; [exact Hr|].
  exact (@system_entry_first_invariant sample_runtime store_AB Hr).
Defined.

Lemma other_sessions_untouched_witness :
  let o := SendMessage replying_gateway
             (ChatRequest.mk (lit "Thanks") (lit "A")) in
  @reachable sample_runtime store_AB
  ∧ lit "B" ≠ op_session o
  ∧ conversations (@run_op sample_runtime o store_AB) !! lit "B"
    = conversations store_AB !! lit "B"
  ∧ log_of (@run_op sample_runtime o store_AB) (lit "B")
    = log_of store_AB (lit "B").
Proof.
  cbv zeta.
  assert (@reachable sample_runtime store_AB) as Hr
    by (apply reachable_step, reachable_step, reachable_init).
  assert (lit "B" ≠ lit "A") as Hne by discriminate.
  split; [exact Hr|]. split; [exact Hne|].
  exact (@other_sessions_untouched sample_runtime store_AB
           (SendMessage replying_gateway
              (ChatRequest.mk (lit "Thanks") (lit "A")))
           (lit "B") Hr Hne).
Defined.

(** ** More on stripping *)

Section StripShape.

Lemma lstrip_split s :
  ∃ pre, s = pre ++ lstrip s ∧ blank pre = true.
Proof.
  induction s as [|c s (pre & Hs & Hpre)]; [by exists []|].
  cbn [lstrip]. destruct (isspace c) eqn:Hc.
  - exists (c :: pre). split; [cbn; by rewrite <- Hs|].
    unfold blank in *. cbn. by rewrite Hc.
  - by exists [].
Qed.

Lemma lstrip_first s c : head (lstrip s) = Some c → isspace c = false.
Proof.
  induction s as [|d s IH]; [done|].
  cbn [lstrip]. destruct (isspace d) eqn:Hd; [exact IH|].
  cbn. by intros [= <-].
Qed.

Lemma rstrip_split s :
  ∃ post, s = rstrip s ++ post ∧ blank post = true.
Proof.
  destruct (lstrip_split (rev s)) as (pre & Hs & Hpre).
  exists (rev pre). split; [|by rewrite blank_rev].
  unfold rstrip. rewrite <- rev_app_distr, <- Hs. by rewrite rev_involutive.
Qed.

Lemma last_rev_head (s : list N) : last (rev s) = head s.
Proof. destruct s as [|c s]; [done|]. cbn [rev]. apply last_snoc. Qed.

Lemma rstrip_last s c : last (rstrip s) = Some c → isspace c = false.
Proof.
  unfold rstrip. rewrite last_rev_head. apply lstrip_first.
Qed.

Lemma rstrip_first s c :
  (∀ d, head s = Some d → isspace d = false) →
  head (rstrip s) = Some c → isspace c = false.
Proof.
  intros Hs Hc. destruct (rstrip_split s) as (post & Hsplit & _).
  apply Hs. rewrite Hsplit. destruct (rstrip s); [done|]. exact Hc.
Qed.

(** X1.  [strip] cuts a blank prefix and a blank suffix off the string
    and nothing else, and what is left neither starts nor ends with a
    whitespace character. *)
Theorem strip_decompose s :
  ∃ pre post,
    s = pre ++ strip s ++ post
    ∧ blank pre = true ∧ blank post = true
    ∧ (∀ c, head (strip s) = Some c → isspace c = false)
    ∧ (∀ c, last (strip s) = Some c → isspace c = false).
Proof.
  destruct (lstrip_split s) as (pre & Hs & Hpre).
  destruct (rstrip_split (lstrip s)) as (post & Ht & Hpost).
  exists pre, post. unfold strip.
  split; [by rewrite <- Ht|]. split; [done|]. split; [done|]. split.
  - intros c. apply rstrip_first. intros d. apply lstrip_first.
  - intros c. apply rstrip_last.
Qed.

End StripShape.

(** ** Outcomes of the handlers on any store *)

Section Outcomes.

Context `{Runtime}.
Implicit Types (st : state) (llm : gateway) (sid msg : list N).

Lemma get_or_create_history_cases st sid :
  ∃ l st1,
    get_or_create_history sid st = (inr l, st1)
    ∧ conversations st1 !! sid = Some l
    ∧ ((conversations st !! sid = Some l ∧ st1 = st)
       ∨ (conversations st !! sid = None
          ∧ st1 = bound sid (fresh (dom (heap st)))
                    (alloc [SystemMessage SYSTEM_PROMPT] st))).
Proof.
  destruct (conversations st !! sid) as [l|] eqn:Hl.
  - exists l, st. rewrite (get_or_create_history_present _ _ l) by done. auto.
  - eexists _, _. rewrite get_or_create_history_absent by done.
    split; [done|]. split; [apply lookup_insert_eq | auto].
Qed.

(** The log a send with visible text leaves under its session. *)
Lemma chat_visible_log llm st sid msg h :
  blank msg = false →
  history_for st sid = Some h →
  log_of (chat llm (ChatRequest.mk msg sid) st).2 sid =
    Some (match llm (h ++ [HumanMessage msg]) with
          | inr reply => h ++ [HumanMessage msg; AIMessage reply]
          | inl _ => h ++ [HumanMessage msg]
          end).
Proof.
  intros Hb Hh.
  destruct (get_or_create_history_returns st sid h Hh) as (l & st1 & Hg & Hl & Hl1).
  rewrite (chat_visible llm _ st l st1) by done.
  cbn [ChatRequest.message ChatRequest.session_id].
  rewrite appended_lookup, Hl1. cbn [fmap option_fmap option_map default from_option id].
  destruct (llm _) as [e|reply]; cbn [snd].
  - rewrite log_of_appended by done. by rewrite Hl1.
  - rewrite log_of_appended by done.
    rewrite appended_lookup, Hl1. cbn. by rewrite <- app_assoc.
Qed.

Lemma get_or_create_history_effect st sid :
  ∃ l st1,
    get_or_create_history sid st = (inr l, st1)
    ∧ conversations st1 !! sid = Some l
    ∧ (∀ sid', sid' ≠ sid →
         conversations st1 !! sid' = conversations st !! sid')
    ∧ dom (conversations st1) = {[sid]} ∪ dom (conversations st)
    ∧ get_or_create_history sid st1 = (inr l, st1).
Proof.
  destruct (get_or_create_history_cases st sid)
    as (l & st1 & Hg & Hl & [[Hold ->] | [Hnone ->]]).
  - exists l, st. split; [done|]. split; [done|]. split; [done|].
    split; [|done]. apply elem_of_dom_2 in Hold.
    apply set_eq. intros k. rewrite elem_of_union, elem_of_singleton.
    split; [auto | by intros [-> | ?]].
  - eexists _, _. split; [done|]. split; [done|]. split.
    { intros sid' Hne. cbn [conversations bound alloc].
      by rewrite lookup_insert_ne. }
    split; [apply dom_insert_L|].
    by apply get_or_create_history_present.
Qed.

(** X2.  On every store, [get_or_create_history] returns without
    raising: the id is bound to the list it returns, no other binding
    changes, the keys are the old ones and the id, and a second call
    returns the same list and changes nothing. *)
Theorem get_or_create_history_binds st sid :
  ∃ l st1,
    get_or_create_history sid st = (inr l, st1)
    ∧ conversations st1 !! sid = Some l
    ∧ (∀ sid', sid' ≠ sid →
         conversations st1 !! sid' = conversations st !! sid')
    ∧ dom (conversations st1) = {[sid]} ∪ dom (conversations st)
    ∧ get_or_create_history sid st1 = (inr l, st1).
Proof. apply get_or_create_history_effect. Qed.

(** X3.  Whatever the message, the store and the model, [chat] either
    answers with the caller's session id or raises an [HTTPException]
    with status 500 whose detail starts with the fixed prefix; its
    status is never 400. *)
Theorem chat_outcome llm st sid msg :
  let out := (chat llm (ChatRequest.mk msg sid) st).1 in
  ((∃ reply, out = inr (ChatResponse.mk reply sid))
   ∨ (∃ e, out = inl (HTTPException 500
                        (lit "Error processing message: " ++ exn_str e))))
  ∧ (http_status out = 200%Z ∨ http_status out = 500%Z)
  ∧ http_status out ≠ 400%Z.
Proof.
  cbv zeta. destruct (blank msg) eqn:Hb.
  - rewrite chat_blank by done. cbn [fst http_status].
    split; [right; by eexists|]. split; [auto | discriminate].
  - destruct (get_or_create_history_cases st sid) as (l & st1 & Hg & _).
    rewrite (chat_visible llm _ st l st1) by done.
    destruct (llm _) as [e|reply]; cbn [fst http_status ChatRequest.session_id].
    + split; [right; by eexists|]. split; [auto | discriminate].
    + split; [left; by eexists|]. split; [auto | discriminate].
Qed.

(** X4.  [clear_history] never fails: on every store it answers with
    the confirmation and the caller's session id. *)
Theorem clear_history_always_succeeds st sid :
  (clear_history (ClearHistoryRequest.mk sid) st).1
  = inr (ClearHistoryResponse.mk (lit "Conversation history cleared") sid).
Proof.
  destruct (conversations st !! sid) as [l|] eqn:Hl.
  - rewrite clear_history_present; [done|]. cbn. rewrite Hl. by eexists.
  - by rewrite clear_history_absent.
Qed.

(** X5.  A blank message never reaches the model: the outcome and the
    store are the same for any two behaviours of the model. *)
Theorem chat_blank_ignores_gateway llm1 llm2 st sid msg :
  blank msg = true →
  chat llm1 (ChatRequest.mk msg sid) st = chat llm2 (ChatRequest.mk msg sid) st.
Proof. intros Hb. by rewrite !chat_blank. Qed.

Lemma chat_gateway_argument llm1 llm2 st sid msg h :
  history_for st sid = Some h →
  llm1 (h ++ [HumanMessage msg]) = llm2 (h ++ [HumanMessage msg]) →
  chat llm1 (ChatRequest.mk msg sid) st = chat llm2 (ChatRequest.mk msg sid) st.
Proof.
  intros Hh Hllm. destruct (blank msg) eqn:Hb; [by rewrite !chat_blank|].
  destruct (get_or_create_history_returns st sid h Hh) as (l & st1 & Hg & Hl & Hl1).
  rewrite !(chat_visible _ _ st l st1) by done.
  cbn [ChatRequest.message ChatRequest.session_id].
  rewrite appended_lookup, Hl1. cbn [fmap option_fmap option_map default from_option id].
  by rewrite Hllm.
Qed.

(** X6.  The session's log changes exactly when the message has
    visible text, whether or not the model then answers. *)
Theorem chat_changes_log_iff_visible llm st sid msg h :
  history_for st sid = Some h →
  log_of (chat llm (ChatRequest.mk msg sid) st).2 sid = log_of st sid
  ↔ blank msg = true.
Proof.
  intros Hh. split.
  - destruct (blank msg) eqn:Hb; [done|]. intros Hsame. exfalso.
    rewrite (chat_visible_log llm st sid msg h Hb Hh) in Hsame.
    unfold history_for, log_of in *.
    destruct (conversations st !! sid) as [l|]; [|discriminate]. cbn in Hsame.
    rewrite Hh in Hsame. injection Hsame as Hsame.
    apply (f_equal length) in Hsame.
    destruct (llm _); rewrite length_app in Hsame; cbn in Hsame; lia.
  - intros Hb. by rewrite chat_blank.
Qed.

(** X7.  Clearing a session and then sending to it starts over: with a
    model that answers, the log is the system entry, the new message
    and the reply, whatever the store held before. *)
Theorem clear_then_send_starts_over llm st sid msg reply :
  blank msg = false →
  llm [SystemMessage SYSTEM_PROMPT; HumanMessage msg] = inr reply →
  log_of (chat llm (ChatRequest.mk msg sid)
            (clear_history (ClearHistoryRequest.mk sid) st).2).2 sid
  = Some [SystemMessage SYSTEM_PROMPT; HumanMessage msg; AIMessage reply].
Proof.
  intros Hb Hllm.
  assert (history_for (clear_history (ClearHistoryRequest.mk sid) st).2 sid
          = Some [SystemMessage SYSTEM_PROMPT]) as Hh.
  { unfold history_for.
    destruct (conversations st !! sid) as [l|] eqn:Hl.
    - rewrite clear_history_present by (cbn; rewrite Hl; by eexists).
      cbn [snd ClearHistoryRequest.session_id conversations heap bound alloc].
      rewrite lookup_insert_eq. apply lookup_insert_eq.
    - rewrite clear_history_absent by done. cbn [snd]. by rewrite Hl. }
  rewrite (chat_visible_log _ _ _ _ _ Hb Hh). cbn [app]. by rewrite Hllm.
Qed.

(** X8.  The user entry of a failed turn stays in the context: when
    the model fails on one message and answers the next, the log holds
    both user entries and then the reply. *)
Theorem failed_turn_stays_in_context llm1 llm2 st sid msg1 msg2 h e reply :
  blank msg1 = false →
  blank msg2 = false →
  history_for st sid = Some h →
  llm1 (h ++ [HumanMessage msg1]) = inl e →
  llm2 (h ++ [HumanMessage msg1; HumanMessage msg2]) = inr reply →
  log_of (chat llm2 (ChatRequest.mk msg2 sid)
            (chat llm1 (ChatRequest.mk msg1 sid) st).2).2 sid
  = Some (h ++ [HumanMessage msg1; HumanMessage msg2; AIMessage reply]).
Proof.
  intros Hb1 Hb2 Hh Hllm1 Hllm2.
  pose proof (chat_visible_log llm1 st sid msg1 h Hb1 Hh) as Hlog1.
  rewrite Hllm1 in Hlog1. apply log_of_history_for in Hlog1.
  rewrite (chat_visible_log _ _ _ _ _ Hb2 Hlog1).
  rewrite <- !app_assoc. cbn [app]. rewrite Hllm2.
  by rewrite <- app_assoc.
Qed.

End Outcomes.

(** ** Runs of the service *)

Section Runs.

Context `{Runtime}.
Implicit Types (st : state) (sid : list N) (l : loc) (o : op) (os : list op).

Lemma run_ops_snoc os o st : run_ops (os ++ [o]) st = run_op o (run_ops os st).
Proof. unfold run_ops. by rewrite foldl_app. Qed.

Lemma reachable_run_ops os st : reachable st → reachable (run_ops os st).
Proof.
  revert st. induction os as [|o os IH]; intros st Hr; [done|].
  cbn. apply IH. by constructor.
Qed.

(** The reachable stores are the ones some list of requests leaves. *)
Lemma reachable_iff_run st : reachable st ↔ ∃ os, st = run_ops os init_state.
Proof.
  split.
  - induction 1 as [|o st _ (os & ->)]; [by exists []|].
    exists (os ++ [o]). by rewrite run_ops_snoc.
  - intros (os & ->). apply reachable_run_ops. constructor.
Qed.

(** *** Which session ids are stored *)

Lemma dom_run_op o st :
  dom (conversations (run_op o st))
  = (if creates o then {[op_session o]} else ∅) ∪ dom (conversations st).
Proof.
  destruct o as [llm [msg sid] | [sid]]; cbn [run_op creates op_session
    ChatRequest.message ChatRequest.session_id ClearHistoryRequest.session_id].
  - destruct (blank msg) eqn:Hb; cbn [negb].
    { rewrite chat_blank by done. cbn [snd]. by rewrite (left_id_L ∅ (∪)). }
    destruct (get_or_create_history_effect st sid)
      as (l & st1 & Hg & _ & _ & Hdom & _).
    rewrite (chat_visible llm _ st l st1) by done.
    destruct (llm _); cbn [snd conversations appended]; exact Hdom.
  - rewrite (left_id_L ∅ (∪)).
    destruct (conversations st !! sid) as [l|] eqn:Hl.
    + rewrite clear_history_present by (cbn; rewrite Hl; by eexists).
      cbn [snd conversations bound alloc ClearHistoryRequest.session_id].
      rewrite dom_insert_L. apply elem_of_dom_2 in Hl.
      apply set_eq. intros k. rewrite elem_of_union, elem_of_singleton.
      split; [by intros [-> | ?] | auto].
    + by rewrite clear_history_absent.
Qed.

(** X9.  The session ids stored after a run are the ones stored before
    it and the ids of its sends with visible text: a send binds its id
    even when the model fails, a blank send and a clear bind nothing,
    and nothing ever unbinds an id. *)
Theorem stored_sessions_after_run os st :
  dom (conversations (run_ops os st))
  = dom (conversations st) ∪ list_to_set (op_session <$> filter creates os).
Proof.
  revert st. induction os as [|o os IH]; intros st.
  { cbn. by rewrite (right_id_L ∅ (∪)). }
  change (run_ops (o :: os) st) with (run_ops os (run_op o st)).
  rewrite IH, dom_run_op, filter_cons.
  destruct (creates o); cbn [bool_decide].
  - rewrite decide_True by done. rewrite fmap_cons, list_to_set_cons.
    apply set_eq. intros k. rewrite !elem_of_union. tauto.
  - rewrite decide_False by (intros []). by rewrite (left_id_L ∅ (∪)).
Qed.

(** *** The shape of every conversation *)

Lemma well_shaped_fresh : well_shaped [SystemMessage SYSTEM_PROMPT].
Proof.
  split; [done|]. intros [|i] m Hm; [|by destruct i].
  injection Hm as <-. split; [done | discriminate].
Qed.

Lemma well_shaped_human h c :
  well_shaped h → well_shaped (h ++ [HumanMessage c]).
Proof.
  intros [H0 Hall]. split; [by apply lookup_app_l_Some|].
  intros i m Hm. apply lookup_app_Some in Hm as [Hm | [Hlen Hm]].
  - destruct (Hall i m Hm) as [Hsys Hai]. split; [done|].
    intros Hr. destruct (Hai Hr) as (j & d & -> & Hj).
    exists j, d. split; [done | by apply lookup_app_l_Some].
  - destruct (i - length h)%nat; [|by destruct n].
    injection Hm as <-. split; discriminate.
Qed.

Lemma well_shaped_reply h c r :
  well_shaped (h ++ [HumanMessage c]) →
  well_shaped ((h ++ [HumanMessage c]) ++ [AIMessage r]).
Proof.
  intros [H0 Hall]. split; [by apply lookup_app_l_Some|].
  intros i m Hm. apply lookup_app_Some in Hm as [Hm | [Hlen Hm]].
  - destruct (Hall i m Hm) as [Hsys Hai]. split; [done|].
    intros Hr. destruct (Hai Hr) as (j & d & -> & Hj).
    exists j, d. split; [done | by apply lookup_app_l_Some].
  - destruct (i - length (h ++ [HumanMessage c]))%nat eqn:Hi; [|by destruct n].
    injection Hm as <-. split; [discriminate|]. intros _.
    rewrite length_app in Hlen, Hi. cbn in Hlen, Hi.
    exists (length h), c. split; [lia|].
    apply lookup_app_l_Some. by rewrite list_lookup_middle.
Qed.

Lemma shaped_store_init : shaped_store init_state.
Proof.
  intros sid l Hl. cbn [init_state conversations] in Hl.
  by rewrite lookup_empty in Hl.
Qed.

Lemma shaped_store_fresh_binding st sid :
  shaped_store st →
  shaped_store (bound sid (fresh (dom (heap st)))
                  (alloc [SystemMessage SYSTEM_PROMPT] st)).
Proof.
  intros Hs sid' l'. cbn [heap conversations bound alloc].
  destruct (decide (sid = sid')) as [<- | Hne].
  - rewrite lookup_insert_eq. intros [= <-].
    exists [SystemMessage SYSTEM_PROMPT]. rewrite lookup_insert_eq.
    split; [done | apply well_shaped_fresh].
  - rewrite lookup_insert_ne by done. intros Hl'.
    destruct (Hs _ _ Hl') as (h & Hh & Hwf). exists h. split; [|done].
    rewrite lookup_insert_ne; [done|]. intros <-.
    by rewrite fresh_loc_unused in Hh.
Qed.

Lemma shaped_store_human st l c :
  shaped_store st → shaped_store (appended l (HumanMessage c) st).
Proof.
  intros Hs sid' l' Hl'. cbn [heap conversations appended] in *.
  destruct (Hs _ _ Hl') as (h & Hh & Hwf).
  destruct (decide (l = l')) as [<- | Hne].
  - exists (h ++ [HumanMessage c]). rewrite lookup_alter_eq, Hh.
    split; [done | by apply well_shaped_human].
  - exists h. by rewrite lookup_alter_ne.
Qed.

Lemma shaped_store_turn st l c r :
  shaped_store st →
  shaped_store (appended l (AIMessage r) (appended l (HumanMessage c) st)).
Proof.
  intros Hs sid' l' Hl'. cbn [heap conversations appended] in *.
  destruct (Hs _ _ Hl') as (h & Hh & Hwf).
  destruct (decide (l = l')) as [<- | Hne].
  - exists ((h ++ [HumanMessage c]) ++ [AIMessage r]).
    rewrite !lookup_alter_eq, Hh.
    split; [done | by apply well_shaped_reply, well_shaped_human].
  - exists h. by rewrite !lookup_alter_ne.
Qed.

Lemma shaped_store_run_op o st : shaped_store st → shaped_store (run_op o st).
Proof.
  intros Hs. destruct o as [llm [msg sid] | req]; cbn [run_op].
  - destruct (blank msg) eqn:Hb; [by rewrite chat_blank|].
    destruct (get_or_create_history_cases st sid)
      as (l & st1 & Hg & _ & Hst1).
    assert (shaped_store st1) as Hs1.
    { destruct Hst1 as [[_ ->] | [_ ->]];
        [done | by apply shaped_store_fresh_binding]. }
    rewrite (chat_visible llm _ st l st1) by done.
    destruct (llm _); cbn [snd ChatRequest.message].
    + by apply shaped_store_human.
    + by apply shaped_store_turn.
  - apply clear_history_state_ind; [done|].
    intros _. by apply shaped_store_fresh_binding.
Qed.

Lemma reachable_shaped_store st : reachable st → shaped_store st.
Proof.
  induction 1 as [|o st _ IH];
    [apply shaped_store_init | by apply shaped_store_run_op].
Qed.

(** X10.  In every reachable store every log is a well-formed
    conversation: the system entry is first and occurs nowhere else,
    and each assistant entry comes directly after a user entry. *)
Theorem logs_well_shaped st sid h :
  reachable st →
  log_of st sid = Some h →
  well_shaped h.
Proof.
  intros Hr Hlog. apply reachable_shaped_store in Hr. unfold log_of in Hlog.
  destruct (conversations st !! sid) as [l|] eqn:Hl; [|discriminate].
  destruct (Hr _ _ Hl) as (h' & Hh' & Hwf). cbn in Hlog. congruence.
Qed.

End Runs.

(** ** The service as a map from session ids to logs *)

Section SessionView.

Context `{Runtime}.
Implicit Types (st : state) (sid : list N) (l : loc) (o : op).

Lemma history_for_default st sid :
  system_first st →
  history_for st sid = Some (default [SystemMessage SYSTEM_PROMPT] (log_of st sid)).
Proof.
  intros Hs. unfold history_for, log_of.
  destruct (conversations st !! sid) as [l|] eqn:Hl; [|done]. cbn.
  destruct (system_first_live _ _ _ Hs Hl) as [t Ht]. by rewrite Ht.
Qed.

(** The log of the session a request names, after the request. *)
Lemma log_of_run_op_own o st :
  system_first st →
  log_of (run_op o st) (op_session o) = next_log o (log_of st (op_session o)).
Proof.
  intros Hs. destruct o as [llm [msg sid] | [sid]]; cbn [run_op next_log op_session
    ChatRequest.message ChatRequest.session_id ClearHistoryRequest.session_id].
  - destruct (blank msg) eqn:Hb; [by rewrite chat_blank|].
    rewrite (chat_visible_log llm st sid msg _ Hb (history_for_default _ _ Hs)).
    by destruct (llm _).
  - destruct (conversations st !! sid) as [l|] eqn:Hl.
    + destruct (system_first_live _ _ _ Hs Hl) as [t Ht].
      rewrite clear_history_present by (cbn; rewrite Hl; by eexists).
      unfold log_of.
      cbn [snd conversations heap bound alloc ClearHistoryRequest.session_id].
      rewrite Hl, lookup_insert_eq. cbn. rewrite Ht. apply lookup_insert_eq.
    + rewrite clear_history_absent by done. cbn [snd].
      unfold log_of. by rewrite Hl.
Qed.

Lemma log_of_run_op o st sid :
  store_ok st →
  log_of (run_op o st) sid
  = if decide (sid = op_session o) then next_log o (log_of st sid)
    else log_of st sid.
Proof.
  intros Hok. destruct (decide (sid = op_session o)) as [-> | Hne].
  - apply log_of_run_op_own, Hok.
  - by apply untouched_run_op.
Qed.

(** X11.  Seen through the logs, the heap and the aliasing disappear:
    from a reachable store a request rewrites the log of its own
    session as [next_log] says, from that log alone, and leaves every
    other log as it is. *)
Theorem run_op_refines_next_log o st sid :
  reachable st →
  log_of (run_op o st) sid
  = if decide (sid = op_session o) then next_log o (log_of st sid)
    else log_of st sid.
Proof. intros Hr. by apply log_of_run_op, reachable_store_ok. Qed.

(** X12.  Requests for different sessions commute: served in either
    order from a reachable store, they leave every session with the
    same log. *)
Theorem requests_on_different_sessions_commute o1 o2 st sid :
  reachable st →
  op_session o1 ≠ op_session o2 →
  log_of (run_op o2 (run_op o1 st)) sid = log_of (run_op o1 (run_op o2 st)) sid.
Proof.
  intros Hr Hne. apply reachable_store_ok in Hr.
  rewrite !log_of_run_op by (done || by apply store_ok_run_op).
  destruct (decide (sid = op_session o1)) as [H1 | H1];
    destruct (decide (sid = op_session o2)) as [H2 | H2];
    [congruence | done..].
Qed.

(** X13.  Clearing twice is clearing once: from a reachable store the
    second [clear_history] for a session changes no log. *)
Theorem clear_history_twice req st sid :
  reachable st →
  log_of (run_op (ClearHistory req) (run_op (ClearHistory req) st)) sid
  = log_of (run_op (ClearHistory req) st) sid.
Proof.
  intros Hr. apply reachable_store_ok in Hr.
  rewrite (log_of_run_op _ (run_op _ st)) by by apply store_ok_run_op.
  destruct (decide (sid = op_session (ClearHistory req))) as [-> | Hne]; [|done].
  rewrite log_of_run_op_own by apply Hr. cbn [next_log].
  by destruct (log_of st _).
Qed.

(** X14.  From a reachable store, what a send asks the model is the
    stored conversation, system entry first, followed by the new user
    entry: two models that agree on that one list give the same outcome
    and the same store. *)
Theorem chat_asks_with_full_history st sid :
  reachable st →
  ∃ t,
    history_for st sid = Some (SystemMessage SYSTEM_PROMPT :: t)
    ∧ ∀ llm1 llm2 msg,
        llm1 (SystemMessage SYSTEM_PROMPT :: t ++ [HumanMessage msg])
        = llm2 (SystemMessage SYSTEM_PROMPT :: t ++ [HumanMessage msg]) →
        chat llm1 (ChatRequest.mk msg sid) st
        = chat llm2 (ChatRequest.mk msg sid) st.
Proof.
  intros Hr. apply reachable_store_ok in Hr as [Hs _].
  assert (∃ t, history_for st sid = Some (SystemMessage SYSTEM_PROMPT :: t))
    as [t Ht].
  { unfold history_for.
    destruct (conversations st !! sid) as [l|] eqn:Hl; [|by exists []].
    by apply (system_first_live _ sid). }
  exists t. split; [done|]. intros llm1 llm2 msg Hllm.
  by apply (chat_gateway_argument _ _ _ _ _ _ Ht).
Qed.

End SessionView.

(** ** Start-up with a credential *)

(** X15.  A non-empty [GOOGLE_API_KEY] in the process environment lets
    the import go through with exactly that value, whatever the [.env]
    file binds; when the process environment does not set it, a
    non-empty value from the [.env] file is used. *)
Theorem module_init_uses_credential dotenv environ c k :
  environ !! lit "GOOGLE_API_KEY" = Some (c :: k)
  ∨ (environ !! lit "GOOGLE_API_KEY" = None
     ∧ dotenv !! lit "GOOGLE_API_KEY" = Some (c :: k)) →
  module_init dotenv environ = inr (Some (c :: k)).
Proof.
  intros Hkey. apply module_init_with_credential.
  destruct Hkey as [He | [He Hd]].
  - by apply getenv_environ.
  - by apply getenv_dotenv.
Qed.

(** ** The further theorems at concrete requests *)

Lemma chat_blank_ignores_gateway_witness :
  blank (lit " ") = true
  ∧ @chat sample_runtime replying_gateway
      (ChatRequest.mk (lit " ") (lit "A")) store_AB
    = @chat sample_runtime failing_gateway
        (ChatRequest.mk (lit " ") (lit "A")) store_AB.
Proof.
  split; [reflexivity|].
  apply (@chat_blank_ignores_gateway sample_runtime). reflexivity.
Defined.

Lemma chat_changes_log_iff_visible_witness :
  let h := [SystemMessage SYSTEM_PROMPT; HumanMessage (lit "Hello")] in
  history_for store_AB (lit "B") = Some h
  ∧ (log_of (@chat sample_runtime failing_gateway
               (ChatRequest.mk (lit "Again") (lit "B")) store_AB).2 (lit "B")
     = log_of store_AB (lit "B")
     ↔ blank (lit "Again") = true).
Proof.
  cbv zeta.
  assert (history_for store_AB (lit "B")
          = Some [SystemMessage SYSTEM_PROMPT; HumanMessage (lit "Hello")])
    as Hh by (vm_compute; reflexivity).
  split; [exact Hh|].
  exact (@chat_changes_log_iff_visible sample_runtime failing_gateway
           store_AB (lit "B") (lit "Again") _ Hh).
Defined.

Lemma clear_then_send_starts_over_witness :
  blank (lit "Start again") = false
  ∧ counting_gateway
      [SystemMessage SYSTEM_PROMPT; HumanMessage (lit "Start again")]
    = inr (lit "11")
  ∧ log_of (@chat sample_runtime counting_gateway
              (ChatRequest.mk (lit "Start again") (lit "A"))
              (@clear_history sample_runtime
                 (ClearHistoryRequest.mk (lit "A")) store_AB).2).2 (lit "A")
    = Some [SystemMessage SYSTEM_PROMPT; HumanMessage (lit "Start again");
            AIMessage (lit "11")].
Proof.
  split; [reflexivity|]. split; [reflexivity|].
  apply (@clear_then_send_starts_over sample_runtime); reflexivity.
Defined.

Lemma failed_turn_stays_in_context_witness :
  let h := [SystemMessage SYSTEM_PROMPT;
            HumanMessage (lit "How do I verify a degree?");
            AIMessage (lit "Upload the certificate on the Verify page.")] in
  let e := ProviderError (lit "429 quota exceeded") in
  blank (lit "First") = false
  ∧ blank (lit "Second") = false
  ∧ history_for store_A (lit "A") = Some h
  ∧ failing_gateway (h ++ [HumanMessage (lit "First")]) = inl e
  ∧ counting_gateway
      (h ++ [HumanMessage (lit "First"); HumanMessage (lit "Second")])
    = inr (lit "11111")
  ∧ log_of (@chat sample_runtime counting_gateway
              (ChatRequest.mk (lit "Second") (lit "A"))
              (@chat sample_runtime failing_gateway
                 (ChatRequest.mk (lit "First") (lit "A")) store_A).2).2 (lit "A")
    = Some (h ++ [HumanMessage (lit "First"); HumanMessage (lit "Second");
                  AIMessage (lit "11111")]).
Proof.
  cbv zeta. split; [reflexivity|]. split; [reflexivity|].
  split; [vm_compute; reflexivity|]. split; [reflexivity|].
  split; [reflexivity|].
  apply (@failed_turn_stays_in_context sample_runtime failing_gateway
           counting_gateway store_A (lit "A") (lit "First") (lit "Second")
           _ (ProviderError (lit "429 quota exceeded")));
    [reflexivity | reflexivity | vm_compute; reflexivity
     | reflexivity | reflexivity].
Defined.

Lemma logs_well_shaped_witness :
  let h := [SystemMessage SYSTEM_PROMPT;
            HumanMessage (lit "How do I verify a degree?");
            AIMessage (lit "Upload the certificate on the Verify page.")] in
  @reachable sample_runtime store_AB
  ∧ log_of store_AB (lit "A") = Some h
  ∧ well_shaped h.
Proof.
  cbv zeta.
  assert (@reachable sample_runtime store_AB) as Hr
    by (apply reachable_step, reachable_step, reachable_init).
  assert (log_of store_AB (lit "A")
          = Some [SystemMessage SYSTEM_PROMPT;
                  HumanMessage (lit "How do I verify a degree?");
                  AIMessage (lit "Upload the certificate on the Verify page.")])
    as Hlog by (vm_compute; reflexivity).
  split; [exact Hr|]. split; [exact Hlog|].
  exact (@logs_well_shaped sample_runtime store_AB (lit "A") _ Hr Hlog).
Defined.

Lemma run_op_refines_next_log_witness :
  let o := SendMessage counting_gateway
             (ChatRequest.mk (lit "Thanks") (lit "B")) in
  @reachable sample_runtime store_AB
  ∧ log_of (@run_op sample_runtime o store_AB) (lit "B")
    = if decide (lit "B" = op_session o)
      then next_log o (log_of store_AB (lit "B"))
      else log_of store_AB (lit "B").
Proof.
  cbv zeta.
  assert (@reachable sample_runtime store_AB) as Hr
    by (apply reachable_step, reachable_step, reachable_init).
  split; [exact Hr|].
  exact (@run_op_refines_next_log sample_runtime
           (SendMessage counting_gateway
              (ChatRequest.mk (lit "Thanks") (lit "B")))
           store_AB (lit "B") Hr).
Defined.

Lemma requests_on_different_sessions_commute_witness :
  let o1 := SendMessage counting_gateway
              (ChatRequest.mk (lit "Thanks") (lit "A")) in
  let o2 := ClearHistory (ClearHistoryRequest.mk (lit "B")) in
  @reachable sample_runtime store_AB
  ∧ op_session o1 ≠ op_session o2
  ∧ log_of (@run_op sample_runtime o2 (@run_op sample_runtime o1 store_AB))
      (lit "A")
    = log_of (@run_op sample_runtime o1 (@run_op sample_runtime o2 store_AB))
        (lit "A").
Proof.
  cbv zeta.
  assert (@reachable sample_runtime store_AB) as Hr
    by (apply reachable_step, reachable_step, reachable_init).
  assert (lit "A" ≠ lit "B") as Hne by discriminate.
  split; [exact Hr|]. split; [exact Hne|].
  exact (@requests_on_different_sessions_commute sample_runtime
           (SendMessage counting_gateway
              (ChatRequest.mk (lit "Thanks") (lit "A")))
           (ClearHistory (ClearHistoryRequest.mk (lit "B")))
           store_AB (lit "A") Hr Hne).
Defined.

Lemma clear_history_twice_witness :
  let o := ClearHistory (ClearHistoryRequest.mk (lit "A")) in
  @reachable sample_runtime store_AB
  ∧ log_of (@run_op sample_runtime o (@run_op sample_runtime o store_AB))
      (lit "A")
    = log_of (@run_op sample_runtime o store_AB) (lit "A").
Proof.
  cbv zeta.
  assert (@reachable sample_runtime store_AB) as Hr
    by (apply reachable_step, reachable_step, reachable_init).
  split; [exact Hr|].
  exact (@clear_history_twice sample_runtime
           (ClearHistoryRequest.mk (lit "A")) store_AB (lit "A") Hr).
Defined.

Lemma chat_asks_with_full_history_witness :
  @reachable sample_runtime store_AB
  ∧ ∃ t,
      history_for store_AB (lit "B") = Some (SystemMessage SYSTEM_PROMPT :: t)
      ∧ ∀ llm1 llm2 msg,
          llm1 (SystemMessage SYSTEM_PROMPT :: t ++ [HumanMessage msg])
          = llm2 (SystemMessage SYSTEM_PROMPT :: t ++ [HumanMessage msg]) →
          @chat sample_runtime llm1 (ChatRequest.mk msg (lit "B")) store_AB
          = @chat sample_runtime llm2 (ChatRequest.mk msg (lit "B")) store_AB.
Proof.
  assert (@reachable sample_runtime store_AB) as Hr
    by (apply reachable_step, reachable_step, reachable_init).
  split; [exact Hr|].
  exact (@chat_asks_with_full_history sample_runtime store_AB (lit "B") Hr).
Defined.

Lemma module_init_uses_credential_witness :
  let environ : gmap (list N) (list N) :=
    {[lit "GOOGLE_API_KEY" := lit "key-from-shell"]} in
  let dotenv : gmap (list N) (list N) :=
    {[lit "GOOGLE_API_KEY" := lit "key-from-file"]} in
  environ !! lit "GOOGLE_API_KEY" = Some (lit "key-from-shell")
  ∧ module_init dotenv environ = inr (Some (lit "key-from-shell"))
  ∧ (∅ : gmap (list N) (list N)) !! lit "GOOGLE_API_KEY" = None
  ∧ dotenv !! lit "GOOGLE_API_KEY" = Some (lit "key-from-file")
  ∧ module_init dotenv ∅ = inr (Some (lit "key-from-file")).
Proof.
  cbv zeta.
  assert (({[lit "GOOGLE_API_KEY" := lit "key-from-shell"]}
             : gmap (list N) (list N)) !! lit "GOOGLE_API_KEY"
          = Some (lit "key-from-shell")) as Hshell
    by (vm_compute; reflexivity).
  assert ((∅ : gmap (list N) (list N)) !! lit "GOOGLE_API_KEY" = None)
    as Hnone by (vm_compute; reflexivity).
  assert (({[lit "GOOGLE_API_KEY" := lit "key-from-file"]}
             : gmap (list N) (list N)) !! lit "GOOGLE_API_KEY"
          = Some (lit "key-from-file")) as Hfile
    by (vm_compute; reflexivity).
  split; [exact Hshell|].
  split; [exact (module_init_uses_credential _ _ _ _ (or_introl Hshell))|].
  split; [exact Hnone|]. split; [exact Hfile|].
  exact (module_init_uses_credential _ _ _ _ (or_intror (conj Hnone Hfile))).
Defined.
